(** * pysimenv.core.util: simulation clock, event timer and telemetry logger

    A shallow embedding of [src/pysimenv/core/util.py].  Python floats are
    IEEE-754 binary64 numbers, which is what Rocq's primitive [float] is, so
    times, resolutions and intervals are modelled with [PrimFloat] and the
    comparisons of the source are the primitive comparisons.  Methods that
    mutate [self] and may raise are written in a small state-and-exception
    monad; an exception leaves the object as it was at the [raise]. *)

From Stdlib Require Import ZArith List String Bool Lia Floats.
Import ListNotations.

Set Implicit Arguments.

(** ** Python runtime: exceptions, results, numbers *)

Module Py.

(** The exceptions the modelled methods can raise. *)
Inductive exn : Type :=
| NoSimClockError           (* pysimenv.core.error.NoSimClockError *)
| AttributeError            (* attribute access on None *)
| OverflowError             (* int too large to convert to float *)
| StopIteration             (* next() on an exhausted iterator *)
| TypeError                 (* subscripting an object that has no __getitem__ *)
| IndexError                (* tuple index out of range *)
| KeyError (key : string).  (* missing dict key *)

Inductive result (A : Type) : Type :=
| Ok (a : A)
| Raise (e : exn).
Arguments Ok {A} a.
Arguments Raise {A} e.

(** A method body: reads and writes [self : S], returns or raises. *)
Definition M (S A : Type) : Type := S -> result A * S.

Definition ret {S A} (a : A) : M S A := fun s => (Ok a, s).
Definition raise {S A} (e : exn) : M S A := fun s => (Raise e, s).
Definition bind {S A B} (m : M S A) (k : A -> M S B) : M S B :=
  fun s => match m s with
           | (Ok a, s') => k a s'
           | (Raise e, s') => (Raise e, s')
           end.
Definition get {S} : M S S := fun s => (Ok s, s).
Definition modify {S} (f : S -> S) : M S unit := fun s => (Ok tt, f s).
Definition lift {S A} (r : result A) : M S A := fun s => (r, s).

(** The object after the call, whether it returned or raised. *)
Definition after {S A} (m : M S A) (s : S) : S := snd (m s).
(** What the call produced. *)
Definition outcome {S A} (m : M S A) (s : S) : result A := fst (m s).

(** A value annotated [Union[int, float]]. *)
Inductive num : Type :=
| Int (z : Z)
| Float (f : float).

(** [float(z)] for a Python int: round to nearest even on 53 bits, and
    [OverflowError] when the rounded value does not fit binary64. *)
Definition float_of_int (z : Z) : result float :=
  let f := SF2Prim (binary_normalize prec emax z 0 false) in
  if is_infinity f then Raise OverflowError else Ok f.

(** [x == -1].  An int is compared as an integer; a float is compared
    with the integer exactly, and [-1] is a binary64 value. *)
Definition eq_neg1 (x : num) : bool :=
  match x with
  | Int z => (z =? -1)%Z
  | Float f => (f =? -1)%float
  end.

(** The float an arithmetic operator sees for an operand of either kind. *)
Definition float_of_num (x : num) : result float :=
  match x with
  | Int z => float_of_int z
  | Float f => Ok f
  end.

(** [x - r] with [r] a float: an int operand is converted first. *)
Definition sub_float (x : num) (r : float) : result float :=
  match float_of_num x with
  | Ok f => Ok (f - r)%float
  | Raise e => Raise e
  end.

End Py.

Declare Scope py_scope.
Delimit Scope py_scope with py.
Notation "x <- m ;; k" := (Py.bind m (fun x => k))
  (at level 61, m at next level, right associativity) : py_scope.
Notation "m ;; k" := (Py.bind m (fun _ => k))
  (at level 61, right associativity) : py_scope.

(** ** class SimClock *)

Module SimClock.

Record t : Type := Build
  { time : float;        (* current time *)
    time_res : float }.  (* time resolution *)

(** [SimClock(time=0., time_res=1e-6)]; the literal [1e-6] denotes the
    binary64 value [0x1.0c6f7a0b5ed8dp-20]. *)
Definition default_time : float := 0%float.
Definition default_time_res : float := 0x1.0c6f7a0b5ed8dp-20%float.

Definition init (time time_res : float) : t := Build time time_res.

Definition reset (self : t) : t := Build 0%float (time_res self).
Definition apply_time (time : float) (self : t) : t := Build time (time_res self).
Definition apply_time_res (time_res : float) (self : t) : t := Build (time self) time_res.
Definition elapse (dt : float) (self : t) : t := Build (time self + dt)%float (time_res self).

End SimClock.

(** ** The heap of clocks

    A [Timer] keeps a reference to a [SimClock] that the driver goes on
    mutating, so clocks live in a store and a timer holds a location. *)

Definition loc : Type := nat.
Definition store : Type := loc -> SimClock.t.

Definition store_update (l : loc) (f : SimClock.t -> SimClock.t) (h : store) : store :=
  fun l' => if Nat.eqb l' l then f (h l') else h l'.

(** ** class Timer *)

Module Timer.

Import Py.
Local Open Scope py_scope.

Record t : Type := Build
  { sim_clock : option loc;          (* Optional[SimClock] *)
    event_time_interval : Py.num;    (* Union[int, float] *)
    is_operating : bool;
    is_event : bool;
    last_event_time : float }.

Definition set_sim_clock (c : option loc) (self : t) : t :=
  Build c (event_time_interval self) (is_operating self) (is_event self) (last_event_time self).
Definition set_event_time_interval (i : Py.num) (self : t) : t :=
  Build (sim_clock self) i (is_operating self) (is_event self) (last_event_time self).
Definition set_is_operating (b : bool) (self : t) : t :=
  Build (sim_clock self) (event_time_interval self) b (is_event self) (last_event_time self).
Definition set_is_event (b : bool) (self : t) : t :=
  Build (sim_clock self) (event_time_interval self) (is_operating self) b (last_event_time self).
Definition set_last_event_time (x : float) (self : t) : t :=
  Build (sim_clock self) (event_time_interval self) (is_operating self) (is_event self) x.

(** The default of [__init__]'s parameter. *)
Definition default_event_time_interval : Py.num := Py.Int (-1).

(** [__init__(self, event_time_interval=-1)] *)
Definition init (event_time_interval : Py.num) : t :=
  Build None event_time_interval false false neg_infinity.

(** [turn_off(self)] *)
Definition turn_off : M t unit :=
  modify (set_is_operating false) ;;
  modify (set_is_event false) ;;
  modify (set_last_event_time neg_infinity).

(** [reset(self)] *)
Definition reset : M t unit := turn_off.

(** [attach_sim_clock(self, sim_clock)] *)
Definition attach_sim_clock (sim_clock : loc) : M t unit :=
  modify (set_sim_clock (Some sim_clock)).

(** [detach_sim_clock(self)] *)
Definition detach_sim_clock : M t unit :=
  modify (set_sim_clock None).

(** [self.sim_clock.<attr>]: the clock object behind the reference, or
    [AttributeError] when the reference is [None]. *)
Definition deref (h : store) (c : option loc) : M t SimClock.t :=
  match c with
  | Some l => ret (h l)
  | None => raise AttributeError
  end.

(** [turn_on(self, event_time_interval=None)] *)
Definition turn_on (h : store) (event_time_interval : option Py.num) : M t unit :=
  self <- get ;;
  match sim_clock self with
  | None => raise NoSimClockError
  | Some l =>
      match event_time_interval with
      | Some i => modify (set_event_time_interval i)
      | None => ret tt
      end ;;
      modify (set_is_operating true) ;;
      modify (set_is_event true) ;;
      modify (set_last_event_time (SimClock.time (h l)))
  end.

(** [forward(self)].  The clock is not changed during the call, so it is
    read once. *)
Definition forward (h : store) : M t unit :=
  self <- get ;;
  if is_operating self then
    clock <- deref h (sim_clock self) ;;
    (* prevent repetitive calling *)
    if (abs (SimClock.time clock - last_event_time self) <=? SimClock.time_res clock)%float
    then ret tt
    (* always raise an event when the event time interval is -1 *)
    else if eq_neg1 (event_time_interval self) then
      modify (set_is_event true) ;;
      modify (set_last_event_time (SimClock.time clock))
    else
      let elapsed_time := (SimClock.time clock - last_event_time self)%float in
      bound <- lift (sub_float (event_time_interval self) (SimClock.time_res clock)) ;;
      (* elapsed_time >= bound *)
      if (bound <=? elapsed_time)%float then
        modify (set_is_event true) ;;
        modify (set_last_event_time (SimClock.time clock))
      else
        modify (set_is_event false)
  else ret tt.

End Timer.

(** ** A driver's view: one timer, the clocks, and a sequence of calls

    A driver interleaves calls on the timer with calls on the clocks, and
    may catch what a call raises and carry on with the objects as they
    are. *)

Inductive clock_call : Type :=
| ClockReset
| ClockApplyTime (time : float)
| ClockApplyTimeRes (time_res : float)
| ClockElapse (dt : float).

Inductive call : Type :=
| OnClock (l : loc) (c : clock_call)
| Reset
| AttachSimClock (l : loc)
| TurnOn (event_time_interval : option Py.num)
| TurnOff
| DetachSimClock
| Forward.

Record world : Type := World
  { clocks : store;
    timer : Timer.t }.

Definition clock_step (c : clock_call) : SimClock.t -> SimClock.t :=
  match c with
  | ClockReset => SimClock.reset
  | ClockApplyTime x => SimClock.apply_time x
  | ClockApplyTimeRes r => SimClock.apply_time_res r
  | ClockElapse dt => SimClock.elapse dt
  end.

Definition timer_method (h : store) (c : call) : Py.M Timer.t unit :=
  match c with
  | OnClock _ _ => Py.ret tt
  | Reset => Timer.reset
  | AttachSimClock l => Timer.attach_sim_clock l
  | TurnOn i => Timer.turn_on h i
  | TurnOff => Timer.turn_off
  | DetachSimClock => Timer.detach_sim_clock
  | Forward => Timer.forward h
  end.

Definition step (c : call) (w : world) : Py.result unit * world :=
  match c with
  | OnClock l m => (Py.Ok tt, World (store_update l (clock_step m) (clocks w)) (timer w))
  | _ => let (r, t') := timer_method (clocks w) c (timer w) in
         (r, World (clocks w) t')
  end.

Fixpoint run (cs : list call) (w : world) : world :=
  match cs with
  | [] => w
  | c :: cs' => run cs' (snd (step c w))
  end.

(** [Timer.test()]: a timer with interval 0.1 on a fresh clock, turned on,
    then 100 rounds of [forward], report, [elapse(0.01)].  The clock is
    allocated at location 0; the result is the list of the clock times
    reported as events (the text printed around them is left out).  The
    literals [0.01] and [0.1] denote the binary64 values written here. *)
Definition test_dt : float := 0x1.47ae147ae147bp-7%float.
Definition test_event_time_interval : float := 0x1.999999999999ap-4%float.

Fixpoint test_loop (n : nat) (dt : float) (l : loc) (out : list float)
  : Py.M world (list float) :=
  match n with
  | O => Py.ret out
  | S n' =>
      Py.bind (step Forward) (fun _ =>
      Py.bind Py.get (fun w =>
      let out' := if Timer.is_event (timer w)
                  then out ++ [SimClock.time (clocks w l)]
                  else out in
      Py.bind (step (OnClock l (ClockElapse dt))) (fun _ =>
      test_loop n' dt l out')))
  end.

Definition Timer_test : Py.result (list float) * world :=
  let l : loc := 0%nat in
  let sim_clock : store :=
    fun _ => SimClock.init SimClock.default_time SimClock.default_time_res in
  let timer := Timer.init (Py.Float test_event_time_interval) in
  Py.bind (step (AttachSimClock l)) (fun _ =>
  Py.bind (step (TurnOn None)) (fun _ =>
  test_loop 100 test_dt l []))
    (World sim_clock timer).

(** ** class Logger *)

Module Logger.

Import Py.

Section WithNumpy.

(** The logged values, numpy's arrays and [np.array], which belong to
    numpy and are taken as given. *)
Context {value ndarray : Type}.
Variable np_array : list value -> ndarray.

(** A Python dict with string keys: insertion-ordered, keys unique. *)
Definition dict (V : Type) : Type := list (string * V).

Fixpoint dict_get {V} (k : string) (d : dict V) : option V :=
  match d with
  | [] => None
  | (k', v) :: d' => if String.eqb k' k then Some v else dict_get k d'
  end.

(** [d[k] = v]: overwrite in place, or insert at the end. *)
Fixpoint dict_set {V} (k : string) (v : V) (d : dict V) : dict V :=
  match d with
  | [] => [(k, v)]
  | (k', v') :: d' =>
      if String.eqb k' k then (k', v) :: d' else (k', v') :: dict_set k v d'
  end.

Definition dict_keys {V} (d : dict V) : list string := map fst d.

Record t : Type := Build
  { data : option (dict (list value));   (* tested against None by the source *)
    is_operating : bool }.

(** [__init__(self)] *)
Definition init : t := Build (Some []) true.

Definition turn_on (self : t) : t := Build (data self) true.
Definition turn_off (self : t) : t := Build (data self) false.
Definition clear (self : t) : t := Build (Some []) (is_operating self).

(** [is_empty(self)] *)
Definition is_empty (self : t) : bool :=
  match data self with
  | None => true
  | Some d => (List.length d =? 0)%nat
  end.

(** [self.data[k]] *)
Definition getitem (self : t) (k : string) : result (list value) :=
  match data self with
  | None => Raise TypeError
  | Some d => match dict_get k d with
              | Some xs => Ok xs
              | None => Raise (KeyError k)
              end
  end.

(** [len(self)] *)
Definition len (self : t) : result nat :=
  match data self with
  | None => Ok 0%nat
  | Some d =>
      match dict_keys d with
      | [] => Raise StopIteration                 (* next(iter(...)) *)
      | first_key :: _ =>
          match getitem self first_key with
          | Ok xs => Ok (List.length xs)
          | Raise e => Raise e
          end
      end
  end.

(** One round of the loop of [append]: [self.data[key].append(v)],
    and on [KeyError] the key is created first. *)
Definition append_key (kv : string * value) : M t unit :=
  fun self =>
    let (key, v) := kv in
    match data self with
    | None => (Raise TypeError, self)
    | Some d =>
        match dict_get key d with
        | Some xs => (Ok tt, Build (Some (dict_set key (xs ++ [v]) d)) (is_operating self))
        | None => (Ok tt, Build (Some (dict_set key [v] d)) (is_operating self))
        end
    end.

Fixpoint append_keys (kwargs : list (string * value)) : M t unit :=
  match kwargs with
  | [] => ret tt
  | kv :: rest => bind (append_key kv) (fun _ => append_keys rest)
  end.

(** [append(self, **kwargs)]; [kwargs] in call order, each name with
    its value. *)
Definition append (kwargs : list (string * value)) : M t unit :=
  fun self =>
    if is_operating self then append_keys kwargs self else (Ok tt, self).

(** What [args] is bound to inside [get]: the tuple of the positional
    arguments, or the [dict_keys] view assigned to it. *)
Inductive args_obj : Type :=
| Tuple (ks : list string)
| DictKeys (ks : list string).

Definition args_len (a : args_obj) : nat :=
  match a with Tuple ks | DictKeys ks => List.length ks end.

Definition args_iter (a : args_obj) : list string :=
  match a with Tuple ks | DictKeys ks => ks end.

(** [args[0]]: a tuple is subscriptable, a [dict_keys] view is not. *)
Definition args_first (a : args_obj) : result string :=
  match a with
  | Tuple (k :: _) => Ok k
  | Tuple [] => Raise IndexError  (* not reached: the length is 1 *)
  | DictKeys _ => Raise TypeError
  end.

Inductive retrieved : Type :=
| RNone
| RArray (a : ndarray)
| RDict (d : dict ndarray).

(** [{key: np.array(self.data[key]) for key in args}] *)
Fixpoint comprehension (self : t) (ks : list string) (acc : dict ndarray)
  : result (dict ndarray) :=
  match ks with
  | [] => Ok acc
  | key :: ks' =>
      match getitem self key with
      | Ok xs => comprehension self ks' (dict_set key (np_array xs) acc)
      | Raise e => Raise e
      end
  end.

(** [get(self, *args)] *)
Definition get (args : list string) (self : t) : result retrieved :=
  if is_empty self then Ok RNone
  else
    let args :=
      if (List.length args =? 0)%nat
      then DictKeys (match data self with Some d => dict_keys d | None => [] end)
      else Tuple args in
    if (args_len args =? 1)%nat then
      match args_first args with
      | Ok k => match getitem self k with
                | Ok xs => Ok (RArray (np_array xs))
                | Raise e => Raise e
                end
      | Raise e => Raise e
      end
    else
      match comprehension self (args_iter args) [] with
      | Ok d => Ok (RDict d)
      | Raise e => Raise e
      end.

End WithNumpy.

Section WithH5py.

(** The h5py file object and its datasets belong to h5py and are taken as
    given: [h5file[name] = array], [h5file[group].items()] and
    [list(dataset)], each of which may raise. *)
Context {value ndarray h5file dataset : Type}.
Variable np_array : list value -> ndarray.
Variable h5_setitem : string -> ndarray -> M h5file unit.
Variable h5_items : string -> h5file -> result (list (string * dataset)).
Variable list_of_dataset : dataset -> result (list value).

(** [keys(self)] *)
Definition keys (self : t (value := value)) : result (list string) :=
  match data self with
  | None => Raise AttributeError
  | Some d => Ok (dict_keys d)
  end.

(** [self.data[key] = xs] *)
Definition setitem (key : string) (xs : list value) : M t unit :=
  fun self =>
    match data self with
    | None => (Raise TypeError, self)
    | Some d => (Ok tt, Build (Some (dict_set key xs d)) (is_operating self))
    end.

(** [h5file[name] = array] on the argument of [save], whose default is
    [None]. *)
Definition h5_store (name : string) (array : ndarray) : M (option h5file) unit :=
  fun h5 =>
    match h5 with
    | None => (Raise TypeError, None)
    | Some file => let (r, file') := h5_setitem name array file in (r, Some file')
    end.

(** The loop of [save] over [logged_data.items()]. *)
Fixpoint save_items (data_group : string) (items : dict ndarray) : M (option h5file) unit :=
  match items with
  | [] => ret tt
  | (key, array) :: rest =>
      bind (h5_store (data_group ++ "/" ++ key)%string array)
           (fun _ => save_items data_group rest)
  end.

(** [save(self, h5file=None, data_group='')]; the state is the file
    object. *)
Definition save (self : t) (data_group : string) : M (option h5file) unit :=
  match get np_array [] self with
  | Raise e => raise e
  | Ok RNone => ret tt
  | Ok (RDict logged_data) => save_items data_group logged_data
  | Ok (RArray _) => raise AttributeError   (* an ndarray has no items() *)
  end.

(** The loop of [load] over [h5file[data_group].items()]. *)
Fixpoint load_items (items : list (string * dataset)) : M t unit :=
  match items with
  | [] => ret tt
  | (key, ds) :: rest =>
      bind (lift (list_of_dataset ds))
           (fun xs => bind (setitem key xs) (fun _ => load_items rest))
  end.

(** The [try] block of [load]. *)
Definition load_try (h5 : option h5file) (data_group : string) : M t unit :=
  bind (lift (match h5 with
              | None => Raise TypeError
              | Some file => h5_items data_group file
              end))
       load_items.

(** [load(self, h5file=None, data_group='')]: [except KeyError: pass]. *)
Definition load (h5 : option h5file) (data_group : string) : M t unit :=
  fun self =>
    match load_try h5 data_group self with
    | (Raise (KeyError _), self') => (Ok tt, self')
    | r => r
    end.

End WithH5py.

End Logger.

(** ** Vocabulary of the statements *)

(** The test of the re-entrancy guard of [forward] against the clock at [l]:
    [abs(clock.time - last_event_time) <= clock.time_res]. *)
Definition guard (h : store) (self : Timer.t) (l : loc) : bool :=
  (abs (SimClock.time (h l) - Timer.last_event_time self) <=? SimClock.time_res (h l))%float.

(** The timer after a firing decision at the clock at [l]. *)
Definition fired (h : store) (self : Timer.t) (l : loc) : Timer.t :=
  Timer.set_last_event_time (SimClock.time (h l)) (Timer.set_is_event true self).

(** What the spec's invariant asks of a timer. *)
Definition off_is_clear (self : Timer.t) : Prop :=
  Timer.is_operating self = false ->
  Timer.is_event self = false /\ Timer.last_event_time self = neg_infinity.

(** Calls that leave [event_time_interval] alone: all but [turn_on] with an
    argument. *)
Definition keeps_interval (c : call) : bool :=
  match c with
  | TurnOn (Some _) => false
  | _ => true
  end.

(** Clocks as [SimClock()] makes them, and a timer just constructed. *)
Definition clocks0 : store :=
  fun _ => SimClock.init SimClock.default_time SimClock.default_time_res.

Definition fresh (event_time_interval : Py.num) : world :=
  World clocks0 (Timer.init event_time_interval).

(** What a first [append] leaves in the dict: each name with the one value
    recorded under it. *)
Definition first_samples {value : Type} (kwargs : list (string * value))
  : Logger.dict (list value) :=
  map (fun kv => (fst kv, [snd kv])) kwargs.


(** The values one [append] call carries for the name [k]. *)
Definition values_of {value : Type} (k : string) (kwargs : list (string * value))
  : list value :=
  map snd (filter (fun kv => String.eqb (fst kv) k) kwargs).

(** The values a sequence of [append] calls carries for [k], in order. *)
Definition column {value : Type} (k : string) (calls : list (list (string * value)))
  : list value :=
  flat_map (values_of k) calls.

(** One [append] call after another. *)
Fixpoint append_all {value : Type} (calls : list (list (string * value)))
  : Py.M (Logger.t (value := value)) unit :=
  match calls with
  | [] => Py.ret tt
  | kwargs :: rest => Py.bind (Logger.append kwargs) (fun _ => append_all rest)
  end.

(** The names a sequence of [append] calls mentions, in order. *)
Definition names_of {value : Type} (calls : list (list (string * value)))
  : list string :=
  flat_map (map fst) calls.

(** The sequence under a key, where the key is held. *)
Definition stored {value : Type} (old : option (list value)) : list value :=
  match old with
  | Some xs => xs
  | None => []
  end.

(** What a key holds after the values [vs] are appended to it. *)
Definition extended {value : Type} (old : option (list value)) (vs : list value)
  : option (list value) :=
  match vs with
  | [] => old
  | _ :: _ => Some (stored old ++ vs)
  end.

(** The names of [names] that [held] lacks, each once, in order. *)
Fixpoint new_names (held names : list string) : list string :=
  match names with
  | [] => []
  | k :: rest =>
      if existsb (fun k' => String.eqb k' k) held then new_names held rest
      else k :: new_names (held ++ [k]) rest
  end.

(** A file as a list of named arrays, for the examples: a store appends,
    and the one group, [log], has all of them as members. *)
Definition example_setitem (name : string) (array : list Z)
  : Py.M (list (string * list Z)) unit :=
  fun file => (Py.Ok tt, file ++ [(name, array)]).

Definition example_items (data_group : string) (file : list (string * list Z))
  : Py.result (list (string * list Z)) :=
  if String.eqb data_group "log" then Py.Ok file else Py.Raise (Py.KeyError data_group).

(** Calls that leave the resolution of the clock at [l] alone. *)
Definition keeps_time_res (l : loc) (c : call) : bool :=
  match c with
  | OnClock l' (ClockApplyTimeRes _) => negb (Nat.eqb l' l)
  | _ => true
  end.

(** * Properties *)

Unset Implicit Arguments.

(** ** Facts about binary64 comparison and subtraction *)

Section FloatFacts.

Local Open Scope float_scope.

Lemma SFcompare_antisym (x y : spec_float) :
  SFcompare y x = option_map CompOpp (SFcompare x y).
Proof.
  destruct x as [sx|sx| |sx mx ex], y as [sy|sy| |sy my ey]; simpl;
    try reflexivity;
    try (destruct sx; reflexivity); try (destruct sy; reflexivity);
    try (destruct sx, sy; reflexivity).
  f_equal.
  rewrite (Z.compare_antisym ex ey).
  change (Pcompare my mx Eq) with (Pos.compare my mx).
  change (Pcompare mx my Eq) with (Pos.compare mx my).
  rewrite (Pos.compare_antisym mx my).
  destruct sx, sy; simpl; try reflexivity;
    destruct (ex ?= ey)%Z; simpl; try reflexivity;
    destruct (mx ?= my)%positive; reflexivity.
Qed.

(** [y < x] excludes [x <= y]. *)
Lemma ltb_leb_false (x y : float) : (y <? x) = true -> (x <=? y) = false.
Proof.
  rewrite ltb_spec, leb_spec. unfold SFltb, SFleb.
  rewrite (SFcompare_antisym (Prim2SF x) (Prim2SF y)).
  destruct (SFcompare (Prim2SF x) (Prim2SF y)) as [[ | | ]|]; simpl; congruence.
Qed.

Lemma Prim2SF_finite (x : float) :
  is_finite x = true ->
  (exists s, Prim2SF x = S754_zero s) \/ (exists s m e, Prim2SF x = S754_finite s m e).
Proof.
  unfold is_finite. intros H.
  apply negb_true_iff, orb_false_iff in H. destruct H as [Hn Hi].
  unfold Prim2SF. rewrite Hn, Hi.
  destruct (is_zero x); [left; eauto|].
  destruct (Z.frexp x) as [r e].
  destruct (shr_fexp _ _ _ _ _) as [shr e'].
  destruct (shr_m shr); [left|right|left]; eauto.
Qed.

(** A finite number minus itself is [+0]. *)
Lemma sub_diag_finite (x : float) : is_finite x = true -> x - x = 0.
Proof.
  intros H. apply Prim2SF_inj. rewrite sub_spec.
  destruct (Prim2SF_finite x H) as [[s E]|[s [m [e E]]]]; rewrite E.
  - destruct s; reflexivity.
  - unfold SF64sub, SFsub. rewrite Z.sub_diag. reflexivity.
Qed.

Lemma abs_sub_diag_finite (x : float) : is_finite x = true -> abs (x - x) = 0.
Proof. intros H. rewrite (sub_diag_finite x H). reflexivity. Qed.

End FloatFacts.

(** ** Timer: the branches of [forward] *)

Section TimerBranches.

Import Py.
Local Open Scope float_scope.

Variable h : store.
Variable self : Timer.t.

Lemma forward_off :
  Timer.is_operating self = false -> Timer.forward h self = (Ok tt, self).
Proof.
  intros Hop. unfold Timer.forward, bind, get. rewrite Hop. reflexivity.
Qed.

Lemma forward_no_clock :
  Timer.is_operating self = true -> Timer.sim_clock self = None ->
  Timer.forward h self = (Raise AttributeError, self).
Proof.
  intros Hop Hc. unfold Timer.forward, bind, get. rewrite Hop, Hc. reflexivity.
Qed.

Section Attached.

Variable l : loc.
Hypothesis Hop : Timer.is_operating self = true.
Hypothesis Hclock : Timer.sim_clock self = Some l.

Lemma forward_guarded :
  guard h self l = true -> Timer.forward h self = (Ok tt, self).
Proof.
  unfold guard. intros Hg.
  unfold Timer.forward, bind, get. rewrite Hop, Hclock. simpl.
  rewrite Hg. reflexivity.
Qed.

Lemma forward_always :
  guard h self l = false -> eq_neg1 (Timer.event_time_interval self) = true ->
  Timer.forward h self = (Ok tt, fired h self l).
Proof.
  unfold guard. intros Hg Hs.
  unfold Timer.forward, bind, get. rewrite Hop, Hclock. simpl.
  rewrite Hg, Hs. reflexivity.
Qed.

Lemma forward_interval (I : float) :
  guard h self l = false -> eq_neg1 (Timer.event_time_interval self) = false ->
  float_of_num (Timer.event_time_interval self) = Ok I ->
  Timer.forward h self =
    (Ok tt,
     if I - SimClock.time_res (h l) <=? SimClock.time (h l) - Timer.last_event_time self
     then fired h self l
     else Timer.set_is_event false self).
Proof.
  unfold guard. intros Hg Hs HI.
  unfold Timer.forward, bind, get. rewrite Hop, Hclock. simpl.
  rewrite Hg, Hs. unfold lift, sub_float. rewrite HI.
  destruct (I - _ <=? _); reflexivity.
Qed.

Lemma forward_overflow (e : exn) :
  guard h self l = false -> eq_neg1 (Timer.event_time_interval self) = false ->
  float_of_num (Timer.event_time_interval self) = Raise e ->
  Timer.forward h self = (Raise e, self).
Proof.
  unfold guard. intros Hg Hs HI.
  unfold Timer.forward, bind, get. rewrite Hop, Hclock. simpl.
  rewrite Hg, Hs. unfold lift, sub_float. rewrite HI. reflexivity.
Qed.

End Attached.

End TimerBranches.

(** ** Timer: what [forward] never touches *)

Ltac forward_cases self :=
  destruct self as [c i op ev last];
  unfold Timer.forward, Py.bind, Py.get, Py.after, Py.outcome; simpl;
  destruct op; [destruct c as [l|]; simpl | ]; try reflexivity;
  match goal with
  | |- context [(abs ?x <=? ?r)%float] => destruct (abs x <=? r)%float
  end; try reflexivity;
  destruct (Py.eq_neg1 i); try reflexivity;
  unfold Py.lift, Py.sub_float; destruct (Py.float_of_num i); try reflexivity;
  match goal with
  | |- context [if ?b then _ else _] => destruct b
  end; reflexivity.

Lemma forward_keeps_operating (h : store) (self : Timer.t) :
  Timer.is_operating (Py.after (Timer.forward h) self) = Timer.is_operating self.
Proof. forward_cases self. Qed.

Lemma forward_keeps_interval (h : store) (self : Timer.t) :
  Timer.event_time_interval (Py.after (Timer.forward h) self)
  = Timer.event_time_interval self.
Proof. forward_cases self. Qed.

Lemma forward_keeps_clock (h : store) (self : Timer.t) :
  Timer.sim_clock (Py.after (Timer.forward h) self) = Timer.sim_clock self.
Proof. forward_cases self. Qed.

Lemma timer_of_step (c : call) (w : world) :
  timer (snd (step c w)) = Py.after (timer_method (clocks w) c) (timer w).
Proof.
  unfold step, Py.after.
  destruct c; try reflexivity;
    destruct (timer_method (clocks w) _ (timer w)); reflexivity.
Qed.

Lemma step_keeps_interval (c : call) (w : world) :
  keeps_interval c = true ->
  Timer.event_time_interval (timer (snd (step c w)))
  = Timer.event_time_interval (timer w).
Proof.
  intros Hk. rewrite timer_of_step.
  destruct c as [l m| |l|[i|]| | | ]; simpl in *; try discriminate; try reflexivity.
  - unfold Timer.turn_on, Py.after, Py.bind, Py.get.
    destruct (Timer.sim_clock (timer w)); reflexivity.
  - apply forward_keeps_interval.
Qed.

Lemma run_keeps_interval (cs : list call) (w : world) :
  forallb keeps_interval cs = true ->
  Timer.event_time_interval (timer (run cs w)) = Timer.event_time_interval (timer w).
Proof.
  revert w. induction cs as [|c cs IH]; intros w Hk; simpl in *.
  - reflexivity.
  - apply andb_true_iff in Hk. destruct Hk as [Hc Hcs].
    rewrite (IH _ Hcs). now apply step_keeps_interval.
Qed.

Lemma step_off_is_clear (c : call) (w : world) :
  off_is_clear (timer w) -> off_is_clear (timer (snd (step c w))).
Proof.
  unfold off_is_clear. intros Hinv. rewrite timer_of_step.
  destruct c as [l m| |l|arg| | | ]; simpl.
  - exact Hinv.
  - intros _. split; reflexivity.
  - exact Hinv.
  - unfold Timer.turn_on, Py.after, Py.bind, Py.get.
    destruct (Timer.sim_clock (timer w)); simpl.
    + destruct arg; simpl; discriminate.
    + exact Hinv.
  - intros _. split; reflexivity.
  - exact Hinv.
  - rewrite forward_keeps_operating. intros Hoff.
    unfold Py.after. rewrite (forward_off (clocks w) (timer w) Hoff). simpl.
    now apply Hinv.
Qed.

Lemma run_off_is_clear (cs : list call) (w : world) :
  off_is_clear (timer w) -> off_is_clear (timer (run cs w)).
Proof.
  revert w. induction cs as [|c cs IH]; intros w Hinv; simpl.
  - exact Hinv.
  - apply IH. now apply step_off_is_clear.
Qed.

(** ** Timer: the claims *)

(** C3. An operating timer with a clock attached, an interval that is not
    the always-fire value and has a float value [I], and
    [abs(clock.time - last_event_time) > clock.time_res]: one [forward]
    returns, and sets [is_event = True] and [last_event_time = clock.time]
    when [clock.time - last_event_time >= I - clock.time_res], and otherwise
    sets [is_event = False] and leaves [last_event_time] as it was. *)
Theorem forward_interval_decision
  (h : store) (self : Timer.t) (l : loc) (I : float) :
  Timer.is_operating self = true ->
  Timer.sim_clock self = Some l ->
  Py.eq_neg1 (Timer.event_time_interval self) = false ->
  Py.float_of_num (Timer.event_time_interval self) = Py.Ok I ->
  (SimClock.time_res (h l)
     <? abs (SimClock.time (h l) - Timer.last_event_time self))%float = true ->
  let self' := Py.after (Timer.forward h) self in
  let reached :=
    (I - SimClock.time_res (h l)
       <=? SimClock.time (h l) - Timer.last_event_time self)%float in
  Py.outcome (Timer.forward h) self = Py.Ok tt /\
  self' = (if reached then fired h self l else Timer.set_is_event false self) /\
  (reached = true ->
   Timer.is_event self' = true /\
   Timer.last_event_time self' = SimClock.time (h l)) /\
  (reached = false ->
   Timer.is_event self' = false /\
   Timer.last_event_time self' = Timer.last_event_time self).
Proof.
  intros Hop Hclock Hs HI Hfar self' reached.
  assert (Hg : guard h self l = false) by (apply ltb_leb_false; exact Hfar).
  assert (E : Timer.forward h self
              = (Py.Ok tt, if reached then fired h self l
                           else Timer.set_is_event false self))
    by (apply forward_interval; assumption).
  subst self'. unfold Py.outcome, Py.after. rewrite E. simpl.
  split; [reflexivity|]. split; [reflexivity|].
  split; intros Hr; rewrite Hr; split; reflexivity.
Qed.

Lemma forward_interval_decision_witness :
  let h : store := fun _ => SimClock.init 1%float SimClock.default_time_res in
  let self := Timer.Build (Some 0%nat) (Py.Float 0.5%float) true false 0%float in
  Timer.is_event (Py.after (Timer.forward h) self) = true /\
  Timer.last_event_time (Py.after (Timer.forward h) self) = 1%float.
Proof.
  intros h self.
  destruct (forward_interval_decision h self 0%nat 0.5%float
              eq_refl eq_refl eq_refl eq_refl eq_refl) as [_ [_ [Hfire _]]].
  apply Hfire. reflexivity.
Defined.

(** C4, as amended.  On an operating timer with a clock attached, a
    [forward] that finds [abs(clock.time - last_event_time) <= clock.time_res]
    returns and leaves the timer exactly as it was; and when [clock.time] is
    finite and [clock.time_res >= 0], two [forward] calls at one clock time
    leave the timer as one call does. *)
Theorem forward_idempotent (h : store) (self : Timer.t) (l : loc) :
  Timer.is_operating self = true ->
  Timer.sim_clock self = Some l ->
  (guard h self l = true -> Timer.forward h self = (Py.Ok tt, self)) /\
  (is_finite (SimClock.time (h l)) = true ->
   (0 <=? SimClock.time_res (h l))%float = true ->
   Py.after (Timer.forward h) (Py.after (Timer.forward h) self)
   = Py.after (Timer.forward h) self).
Proof.
  intros Hop Hclock. split.
  - now apply forward_guarded.
  - intros Hfin Hres.
    assert (Hfired : Py.after (Timer.forward h) (fired h self l) = fired h self l).
    { unfold Py.after. rewrite (forward_guarded h (fired h self l) l); try assumption.
      - reflexivity.
      - unfold guard, fired; simpl. now rewrite abs_sub_diag_finite. }
    destruct (guard h self l) eqn:Hg.
    { unfold Py.after. rewrite (forward_guarded h self l Hop Hclock Hg). simpl.
      now rewrite (forward_guarded h self l Hop Hclock Hg). }
    destruct (Py.eq_neg1 (Timer.event_time_interval self)) eqn:Hs.
    { unfold Py.after at 2 3. rewrite (forward_always h self l Hop Hclock Hg Hs).
      simpl. exact Hfired. }
    destruct (Py.float_of_num (Timer.event_time_interval self)) as [I|e] eqn:HI.
    + unfold Py.after at 2 3.
      rewrite (forward_interval h self l Hop Hclock I Hg Hs HI). simpl.
      destruct (I - _ <=? _)%float eqn:Hr.
      * exact Hfired.
      * unfold Py.after.
        rewrite (forward_interval h (Timer.set_is_event false self) l Hop Hclock I Hg Hs HI).
        simpl. rewrite Hr. reflexivity.
    + unfold Py.after.
      rewrite (forward_overflow h self l Hop Hclock e Hg Hs HI). simpl.
      now rewrite (forward_overflow h self l Hop Hclock e Hg Hs HI).
Qed.

Lemma forward_idempotent_witness :
  let h : store := fun _ => SimClock.init 1%float SimClock.default_time_res in
  let self := Timer.Build (Some 0%nat) (Py.Float 0.5%float) true false 0%float in
  Py.after (Timer.forward h) (Py.after (Timer.forward h) self)
  = Py.after (Timer.forward h) self.
Proof.
  intros h self.
  apply (proj2 (forward_idempotent h self 0%nat eq_refl eq_refl)); reflexivity.
Defined.

(** C4, as stated, fails.  A timer with interval 0.5 is turned on at clock
    time 0 and the clock is then set to [inf]: the first [forward] fires,
    and a second one at the same clock time sees [inf - inf = nan], passes
    the guard and clears [is_event]. *)
Lemma forward_twice_differs_at_infinite_time :
  let w := run [AttachSimClock 0; TurnOn None; OnClock 0 (ClockApplyTime infinity)]
               (fresh (Py.Float 0.5%float)) in
  Timer.is_operating (timer w) = true /\
  Timer.sim_clock (timer w) = Some 0%nat /\
  Timer.is_event (timer (run [Forward] w)) = true /\
  Timer.is_event (timer (run [Forward; Forward] w)) = false.
Proof. vm_compute. repeat split; reflexivity. Qed.

(** The same with a negative resolution and finite times. *)
Lemma forward_twice_differs_at_negative_resolution :
  let w := run [OnClock 0 (ClockApplyTimeRes (-1)%float); AttachSimClock 0; TurnOn None;
                OnClock 0 (ClockApplyTime 2%float)]
               (fresh (Py.Float 0.5%float)) in
  Timer.is_event (timer (run [Forward] w)) = true /\
  Timer.is_event (timer (run [Forward; Forward] w)) = false.
Proof. vm_compute. split; reflexivity. Qed.

(** C5. With no clock attached, [turn_on], with or without an interval,
    raises [NoSimClockError] and leaves every attribute of the timer as it
    was. *)
Theorem turn_on_without_clock
  (h : store) (self : Timer.t) (event_time_interval : option Py.num) :
  Timer.sim_clock self = None ->
  Timer.turn_on h event_time_interval self = (Py.Raise Py.NoSimClockError, self).
Proof.
  intros Hc. unfold Timer.turn_on, Py.bind, Py.get. rewrite Hc. reflexivity.
Qed.

Lemma turn_on_without_clock_witness :
  Timer.turn_on clocks0 (Some (Py.Float 0.5%float))
    (Timer.init Timer.default_event_time_interval)
  = (Py.Raise Py.NoSimClockError, Timer.init Timer.default_event_time_interval).
Proof.
  apply (turn_on_without_clock clocks0
           (Timer.init Timer.default_event_time_interval)
           (Some (Py.Float 0.5%float))).
  reflexivity.
Defined.

(** C6, where the code departs from it.  After [attach_sim_clock],
    [turn_on] and [detach_sim_clock] the timer is still operating, and
    [forward] raises [AttributeError] on [self.sim_clock.time]. *)
Theorem forward_after_detach_raises
  (h : store) (i : Py.num) (l : loc) (event_time_interval : option Py.num) :
  let w := run [AttachSimClock l; TurnOn event_time_interval; DetachSimClock]
               (World h (Timer.init i)) in
  Timer.is_operating (timer w) = true /\
  Timer.sim_clock (timer w) = None /\
  fst (step Forward w) = Py.Raise Py.AttributeError.
Proof.
  destruct event_time_interval; simpl; repeat split; reflexivity.
Qed.

(** C7. From a timer just constructed, after any sequence of calls on the
    timer and on the clocks (whatever some of them raise), a timer that is
    not operating has [is_event = False] and [last_event_time = -inf]. *)
Theorem off_timer_is_clear (h : store) (i : Py.num) (cs : list call) :
  let self := timer (run cs (World h (Timer.init i))) in
  Timer.is_operating self = false ->
  Timer.is_event self = false /\ Timer.last_event_time self = neg_infinity.
Proof.
  intros self. apply (run_off_is_clear cs (World h (Timer.init i))).
  intros _. split; reflexivity.
Qed.

Lemma off_timer_is_clear_witness :
  let self :=
    timer (run [AttachSimClock 0; TurnOn None; OnClock 0 (ClockElapse 1%float);
                Forward; TurnOff]
               (fresh (Py.Float 0.5%float))) in
  Timer.is_event self = false /\ Timer.last_event_time self = neg_infinity.
Proof.
  intros self.
  apply (off_timer_is_clear clocks0 (Py.Float 0.5%float)
           [AttachSimClock 0; TurnOn None; OnClock 0 (ClockElapse 1%float);
            Forward; TurnOff]).
  reflexivity.
Defined.

(** C8, as amended.  With a clock attached, [turn_off] sets
    [last_event_time = -inf], and [turn_on] after it sets [is_event = True]
    and [last_event_time] to the clock time of the reactivation.  The next
    [forward], at clock state [h'], leaves the timer as it is when the clock
    is within the resolution of that time, fires when the interval is the
    always-fire value, and otherwise sets [is_event] to the truth value of
    [clock.time - reactivation time >= I - clock.time_res]. *)
Theorem reactivation_then_forward
  (h h' : store) (self : Timer.t) (l : loc) (event_time_interval : option Py.num) :
  Timer.sim_clock self = Some l ->
  let off := Py.after Timer.turn_off self in
  let on := Py.after (Timer.turn_on h event_time_interval) off in
  let next := Py.after (Timer.forward h') on in
  Timer.last_event_time off = neg_infinity /\
  (Timer.is_operating on = true /\
   Timer.is_event on = true /\
   Timer.last_event_time on = SimClock.time (h l)) /\
  (guard h' on l = true -> next = on) /\
  (guard h' on l = false ->
   Py.eq_neg1 (Timer.event_time_interval on) = true ->
   Timer.is_event next = true) /\
  (forall I : float,
     guard h' on l = false ->
     Py.eq_neg1 (Timer.event_time_interval on) = false ->
     Py.float_of_num (Timer.event_time_interval on) = Py.Ok I ->
     Timer.is_event next
     = (I - SimClock.time_res (h' l) <=? SimClock.time (h' l) - SimClock.time (h l))%float).
Proof.
  intros Hclock off on next.
  assert (Hon : Timer.is_operating on = true /\ Timer.is_event on = true /\
                Timer.last_event_time on = SimClock.time (h l) /\
                Timer.sim_clock on = Some l).
  { subst on off. unfold Timer.turn_on, Timer.turn_off, Py.after, Py.bind, Py.get. simpl.
    rewrite Hclock.
    destruct event_time_interval; simpl; repeat split; try reflexivity; exact Hclock. }
  destruct Hon as [Hop [Hev [Hlast Hc]]].
  split; [reflexivity|]. split; [repeat split; assumption|].
  split; [|split].
  - intros Hg. subst next. unfold Py.after.
    now rewrite (forward_guarded h' on l Hop Hc Hg).
  - intros Hg Hs. subst next. unfold Py.after.
    now rewrite (forward_always h' on l Hop Hc Hg Hs).
  - intros I Hg Hs HI. subst next. unfold Py.after.
    rewrite (forward_interval h' on l Hop Hc I Hg Hs HI). simpl.
    rewrite Hlast. destruct (I - _ <=? _)%float; reflexivity.
Qed.

Lemma reactivation_then_forward_witness :
  let h : store := fun _ => SimClock.init 1%float SimClock.default_time_res in
  let h' : store := fun _ => SimClock.init 1.25%float SimClock.default_time_res in
  let self := Timer.Build (Some 0%nat) (Py.Float 0.5%float) true false 0.5%float in
  let on := Py.after (Timer.turn_on h None) (Py.after Timer.turn_off self) in
  Timer.is_event (Py.after (Timer.forward h') on) = false.
Proof.
  intros h h' self on.
  destruct (reactivation_then_forward h h' self 0%nat None eq_refl)
    as [_ [_ [_ [_ Hdecide]]]].
  apply (Hdecide 0.5%float); reflexivity.
Defined.

(** C8, as stated, fails.  A timer with interval 0.5 fires at clock time 1,
    is turned off and on again there, and the clock advances by 0.25: the
    reactivation has set [last_event_time] to 1, not to [-inf], and the next
    [forward] sets [is_event = False]. *)
Lemma reactivated_timer_may_not_fire :
  let w := run [AttachSimClock 0; TurnOn None; OnClock 0 (ClockElapse 1%float);
                Forward; TurnOff; TurnOn None]
               (fresh (Py.Float 0.5%float)) in
  let w' := run [OnClock 0 (ClockElapse 0.25%float); Forward] w in
  Timer.last_event_time (timer w) = 1%float /\
  SimClock.time (clocks w' 0%nat) = 1.25%float /\
  Timer.is_event (timer w') = false.
Proof. vm_compute. repeat split; reflexivity. Qed.

(** C10. [Timer()] has [event_time_interval = -1], on which the always-fire
    test of [forward] succeeds; and after any calls that do not pass an
    interval to [turn_on], whenever the timer is operating with a clock
    attached and [abs(clock.time - last_event_time) > clock.time_res],
    [forward] returns with [is_event = True] and
    [last_event_time = clock.time]. *)
Theorem default_timer_always_fires :
  Timer.event_time_interval (Timer.init Timer.default_event_time_interval)
  = Py.Int (-1) /\
  Py.eq_neg1 (Py.Int (-1)) = true /\
  forall (h : store) (cs : list call) (l : loc),
    let w := run cs (World h (Timer.init Timer.default_event_time_interval)) in
    let self' := Py.after (Timer.forward (clocks w)) (timer w) in
    forallb keeps_interval cs = true ->
    Timer.is_operating (timer w) = true ->
    Timer.sim_clock (timer w) = Some l ->
    (SimClock.time_res (clocks w l)
       <? abs (SimClock.time (clocks w l) - Timer.last_event_time (timer w)))%float
    = true ->
    Py.outcome (Timer.forward (clocks w)) (timer w) = Py.Ok tt /\
    Timer.is_event self' = true /\
    Timer.last_event_time self' = SimClock.time (clocks w l).
Proof.
  split; [reflexivity|]. split; [reflexivity|].
  intros h cs l w self' Hk Hop Hclock Hfar.
  assert (Hi : Py.eq_neg1 (Timer.event_time_interval (timer w)) = true).
  { subst w. rewrite (run_keeps_interval cs _ Hk). reflexivity. }
  assert (Hg : guard (clocks w) (timer w) l = false)
    by (apply ltb_leb_false; exact Hfar).
  subst self'. unfold Py.outcome, Py.after.
  rewrite (forward_always (clocks w) (timer w) l Hop Hclock Hg Hi).
  repeat split; reflexivity.
Qed.

Lemma default_timer_always_fires_witness :
  let w := run [AttachSimClock 0; TurnOn None; OnClock 0 (ClockElapse 0.25%float)]
               (fresh Timer.default_event_time_interval) in
  Timer.is_event (Py.after (Timer.forward (clocks w)) (timer w)) = true.
Proof.
  intros w.
  apply (proj2 (proj2 default_timer_always_fires) clocks0
           [AttachSimClock 0; TurnOn None; OnClock 0 (ClockElapse 0.25%float)]
           0%nat eq_refl eq_refl eq_refl eq_refl).
Defined.

(** ** Logger *)

Section LoggerProperties.

Context {value ndarray : Type}.
Variable np_array : list value -> ndarray.

Lemma dict_get_absent {V} (k : string) (d : Logger.dict V) :
  ~ In k (Logger.dict_keys d) -> Logger.dict_get k d = None.
Proof.
  induction d as [|[k' v'] d IH]; simpl; intros Hk.
  - reflexivity.
  - destruct (String.eqb_spec k' k) as [E|_].
    + exfalso. apply Hk. now left.
    + apply IH. intros Hin. apply Hk. now right.
Qed.

Lemma dict_set_absent {V} (k : string) (v : V) (d : Logger.dict V) :
  ~ In k (Logger.dict_keys d) -> Logger.dict_set k v d = d ++ [(k, v)].
Proof.
  induction d as [|[k' v'] d IH]; simpl; intros Hk.
  - reflexivity.
  - destruct (String.eqb_spec k' k) as [E|_].
    + exfalso. apply Hk. now left.
    + f_equal. apply IH. intros Hin. apply Hk. now right.
Qed.

Lemma dict_get_head {V} (k : string) (v : V) (d : Logger.dict V) :
  Logger.dict_get k ((k, v) :: d) = Some v.
Proof. simpl. now rewrite String.eqb_refl. Qed.

Lemma append_keys_new (kwargs : list (string * value)) :
  forall (d : Logger.dict (list value)) (b : bool),
    NoDup (Logger.dict_keys d ++ map fst kwargs) ->
    Logger.append_keys kwargs (Logger.Build (Some d) b)
    = (Py.Ok tt, Logger.Build (Some (d ++ first_samples kwargs)) b).
Proof.
  induction kwargs as [|[k v] rest IH]; intros d b Hnd; simpl.
  - now rewrite app_nil_r.
  - assert (Hk : ~ In k (Logger.dict_keys d)).
    { apply NoDup_remove_2 in Hnd. intros Hin. apply Hnd.
      apply in_or_app. now left. }
    unfold Py.bind, Logger.append_key. simpl.
    rewrite (dict_get_absent k d Hk), (dict_set_absent k [v] d Hk).
    rewrite IH.
    + now rewrite <- app_assoc.
    + unfold Logger.dict_keys in *. rewrite map_app. simpl.
      rewrite <- app_assoc. simpl.
      apply NoDup_remove_1 in Hnd as Hnd'.
      apply NoDup_remove_2 in Hnd.
      apply (NoDup_Add (a := k) (l := map fst d ++ map fst rest)).
      * apply Add_app.
      * split; assumption.
Qed.

(** C9. A logger just constructed is operating, and its first [append],
    with no [turn_on] before it, returns having recorded every value it was
    given under its name. *)
Theorem fresh_logger_records (kwargs : list (string * value)) :
  NoDup (map fst kwargs) ->
  Logger.is_operating (@Logger.init value) = true /\
  Logger.append kwargs Logger.init
  = (Py.Ok tt, Logger.Build (Some (first_samples kwargs)) true).
Proof.
  intros Hnd. split; [reflexivity|].
  transitivity (Logger.append_keys kwargs (Logger.Build (Some []) true)).
  - reflexivity.
  - exact (append_keys_new kwargs [] true Hnd).
Qed.

(** Where data is held, [len] is the number of samples under the first
    key. *)
Lemma len_of_first_key (k : string) (xs : list value) (d : Logger.dict (list value)) (b : bool) :
  Logger.len (Logger.Build (Some ((k, xs) :: d)) b) = Py.Ok (List.length xs).
Proof.
  unfold Logger.len, Logger.getitem. cbn [Logger.data Logger.dict_keys map fst].
  now rewrite dict_get_head.
Qed.

(** C2, where the code departs from it.  A logger just constructed, or just
    cleared, is empty and holds [dict()], not [None]: [len] passes its
    [None] test and raises [StopIteration] on [next(iter(...))]. *)
Theorem len_of_empty_logger_raises :
  Logger.is_empty (@Logger.init value) = true /\
  Logger.len (@Logger.init value) = Py.Raise Py.StopIteration /\
  forall self : Logger.t (value := value),
    Logger.len (Logger.clear self) = Py.Raise Py.StopIteration.
Proof. repeat split. Qed.

(** C1, where the code departs from it.  After one [append] of one name,
    the logger holds that one key, and [get()] with no argument raises
    [TypeError]: [args] is then the [dict_keys] view, of length 1, and
    [args[0]] subscripts it. *)
Theorem get_all_single_key_raises (key : string) (v : value) :
  let self := Py.after (Logger.append [(key, v)]) Logger.init in
  Logger.data self = Some [(key, [v])] /\
  Logger.is_empty self = false /\
  Logger.get np_array [] self = Py.Raise Py.TypeError.
Proof. repeat split. Qed.

(** With one key held, whatever its samples, [get()] raises. *)
Lemma get_all_one_key_raises (key : string) (xs : list value) (b : bool) :
  Logger.get np_array [] (Logger.Build (Some [(key, xs)]) b) = Py.Raise Py.TypeError.
Proof. reflexivity. Qed.




End LoggerProperties.

Lemma fresh_logger_records_witness :
  Logger.append [("time"%string, 0%Z); ("control"%string, 1%Z)] Logger.init
  = (Py.Ok tt,
     Logger.Build (Some [("time"%string, [0%Z]); ("control"%string, [1%Z])]) true).
Proof.
  apply (fresh_logger_records [("time"%string, 0%Z); ("control"%string, 1%Z)]).
  repeat constructor; simpl; intuition discriminate.
Defined.

(** * Further properties of the code *)

(** ** Timer *)

(** [forward] never changes the clock reference, the interval or
    [is_operating]. *)
Theorem forward_frame (h : store) (self : Timer.t) :
  let self' := Py.after (Timer.forward h) self in
  Timer.sim_clock self' = Timer.sim_clock self /\
  Timer.event_time_interval self' = Timer.event_time_interval self /\
  Timer.is_operating self' = Timer.is_operating self.
Proof.
  split; [apply forward_keeps_clock|].
  split; [apply forward_keeps_interval | apply forward_keeps_operating].
Qed.

Lemma float_of_num_raises (x : Py.num) (e : Py.exn) :
  Py.float_of_num x = Py.Raise e ->
  e = Py.OverflowError /\ exists z, x = Py.Int z.
Proof.
  destruct x as [z|f]; simpl; [|discriminate].
  unfold Py.float_of_int. destruct (is_infinity _); [|discriminate].
  intros E. injection E as <-. split; [reflexivity | now exists z].
Qed.

(** [forward] raises in two cases only: the timer is operating with no
    clock attached ([AttributeError]), or it is operating past the guard
    with an int interval other than -1 that is too large for a float
    ([OverflowError]). *)
Theorem forward_raises_iff (h : store) (self : Timer.t) (e : Py.exn) :
  Py.outcome (Timer.forward h) self = Py.Raise e <->
  Timer.is_operating self = true /\
  ((Timer.sim_clock self = None /\ e = Py.AttributeError) \/
   (exists (l : loc) (z : Z),
      Timer.sim_clock self = Some l /\
      guard h self l = false /\
      Timer.event_time_interval self = Py.Int z /\
      z <> (-1)%Z /\
      Py.float_of_int z = Py.Raise Py.OverflowError /\
      e = Py.OverflowError)).
Proof.
  unfold Py.outcome. split.
  - intros Hr.
    destruct (Timer.is_operating self) eqn:Hop;
      [|rewrite (forward_off h self Hop) in Hr; discriminate].
    split; [reflexivity|].
    destruct (Timer.sim_clock self) as [l|] eqn:Hc.
    + right.
      destruct (guard h self l) eqn:Hg;
        [rewrite (forward_guarded h self l Hop Hc Hg) in Hr; discriminate|].
      destruct (Py.eq_neg1 (Timer.event_time_interval self)) eqn:Hs;
        [rewrite (forward_always h self l Hop Hc Hg Hs) in Hr; discriminate|].
      destruct (Py.float_of_num (Timer.event_time_interval self)) as [I|e'] eqn:HI;
        [rewrite (forward_interval h self l Hop Hc I Hg Hs HI) in Hr; discriminate|].
      rewrite (forward_overflow h self l Hop Hc e' Hg Hs HI) in Hr.
      injection Hr as <-.
      destruct (float_of_num_raises _ _ HI) as [-> [z Hz]].
      exists l, z. rewrite Hz in Hs, HI. simpl in Hs, HI.
      repeat split; try assumption; try reflexivity.
      intros ->. discriminate.
    + left. rewrite (forward_no_clock h self Hop Hc) in Hr.
      injection Hr as <-. now split.
  - intros [Hop [[Hc ->]|[l [z [Hc [Hg [Hi [Hz [Hf ->]]]]]]]]].
    + now rewrite (forward_no_clock h self Hop Hc).
    + rewrite (forward_overflow h self l Hop Hc Py.OverflowError Hg).
      * reflexivity.
      * rewrite Hi. simpl. now apply Z.eqb_neq.
      * rewrite Hi. exact Hf.
Qed.

Lemma forward_raise_unchanged (h : store) (self : Timer.t) (e : Py.exn) :
  Py.outcome (Timer.forward h) self = Py.Raise e ->
  Py.after (Timer.forward h) self = self.
Proof.
  unfold Py.outcome, Py.after. intros Hr.
  destruct (Timer.is_operating self) eqn:Hop;
    [|now rewrite (forward_off h self Hop)].
  destruct (Timer.sim_clock self) as [l|] eqn:Hc;
    [|now rewrite (forward_no_clock h self Hop Hc)].
  destruct (guard h self l) eqn:Hg;
    [now rewrite (forward_guarded h self l Hop Hc Hg)|].
  destruct (Py.eq_neg1 (Timer.event_time_interval self)) eqn:Hs;
    [rewrite (forward_always h self l Hop Hc Hg Hs) in Hr; discriminate|].
  destruct (Py.float_of_num (Timer.event_time_interval self)) as [I|e'] eqn:HI;
    [rewrite (forward_interval h self l Hop Hc I Hg Hs HI) in Hr; discriminate|].
  now rewrite (forward_overflow h self l Hop Hc e' Hg Hs HI).
Qed.

(** A call that raises leaves the timer and the clocks exactly as they
    were, and only [turn_on] and [forward] raise. *)
Theorem raising_call_changes_nothing (c : call) (w : world) (e : Py.exn) :
  fst (step c w) = Py.Raise e ->
  snd (step c w) = w /\
  (c = Forward \/ exists event_time_interval, c = TurnOn event_time_interval).
Proof.
  destruct w as [h self].
  destruct c as [l m| |l|arg| | | ]; simpl; try discriminate.
  - unfold Timer.turn_on, Py.bind, Py.get.
    destruct (Timer.sim_clock self) eqn:Hc; simpl.
    + destruct arg; simpl; discriminate.
    + intros _. split; [reflexivity | right; now exists arg].
  - intros Hr.
    assert (Ho : Py.outcome (Timer.forward h) self = Py.Raise e).
    { unfold Py.outcome. destruct (Timer.forward h self); exact Hr. }
    pose proof (forward_raise_unchanged h self e Ho) as Hu.
    unfold Py.after in Hu. destruct (Timer.forward h self) as [r t']. simpl in *.
    subst t'. split; [reflexivity | now left].
Qed.

Lemma raising_call_changes_nothing_witness :
  snd (step Forward
         (run [AttachSimClock 0; TurnOn None; DetachSimClock] (fresh (Py.Int 3))))
  = run [AttachSimClock 0; TurnOn None; DetachSimClock] (fresh (Py.Int 3)).
Proof.
  apply (raising_call_changes_nothing Forward
           (run [AttachSimClock 0; TurnOn None; DetachSimClock] (fresh (Py.Int 3)))
           Py.AttributeError).
  reflexivity.
Defined.

(** A [forward] right after [turn_on], before the clock moves, changes
    nothing when the clock time is finite and the resolution is not
    negative: the event of the activation is still flagged. *)
Theorem forward_right_after_turn_on
  (h : store) (self : Timer.t) (l : loc) (event_time_interval : option Py.num) :
  Timer.sim_clock self = Some l ->
  is_finite (SimClock.time (h l)) = true ->
  (0 <=? SimClock.time_res (h l))%float = true ->
  let on := Py.after (Timer.turn_on h event_time_interval) self in
  Timer.forward h on = (Py.Ok tt, on) /\ Timer.is_event on = true.
Proof.
  intros Hc Hfin Hres on.
  assert (Hon : Timer.is_operating on = true /\ Timer.is_event on = true /\
                Timer.last_event_time on = SimClock.time (h l) /\
                Timer.sim_clock on = Some l).
  { subst on. unfold Timer.turn_on, Py.after, Py.bind, Py.get. rewrite Hc.
    destruct event_time_interval; simpl; repeat split; try reflexivity; exact Hc. }
  destruct Hon as [Hop [Hev [Hlast Hc']]].
  split; [|exact Hev].
  apply (forward_guarded h on l Hop Hc').
  unfold guard. rewrite Hlast. now rewrite abs_sub_diag_finite.
Qed.

Lemma forward_right_after_turn_on_witness :
  let on := Py.after (Timer.turn_on clocks0 None)
                     (Timer.Build (Some 0%nat) (Py.Float 0.5%float) false false neg_infinity) in
  Timer.forward clocks0 on = (Py.Ok tt, on) /\ Timer.is_event on = true.
Proof.
  intros on.
  apply (forward_right_after_turn_on clocks0
           (Timer.Build (Some 0%nat) (Py.Float 0.5%float) false false neg_infinity)
           0%nat None); reflexivity.
Defined.

(** [Timer.test()] runs to its end and reports ten events: at the clock
    times of rounds 0, 10, 20, ..., 90, each the sum of that many steps of
    0.01 from 0. *)
Theorem Timer_test_events :
  fst Timer_test
  = Py.Ok (map (fun k => Nat.iter (10 * k) (fun t => (t + test_dt)%float) 0%float)
               (seq 0 10)).
Proof. vm_compute. reflexivity. Qed.

(** ** Logger: the dict *)

Section DictFacts.

Context {V : Type}.

Lemma dict_get_set_same (k : string) (v : V) (d : Logger.dict V) :
  Logger.dict_get k (Logger.dict_set k v d) = Some v.
Proof.
  induction d as [|[k' v'] d IH]; simpl.
  - now rewrite String.eqb_refl.
  - destruct (String.eqb k' k) eqn:E; simpl; rewrite E; [reflexivity | exact IH].
Qed.

Lemma dict_get_set_other (k k0 : string) (v : V) (d : Logger.dict V) :
  k0 <> k -> Logger.dict_get k (Logger.dict_set k0 v d) = Logger.dict_get k d.
Proof.
  intros Hne. induction d as [|[k' v'] d IH]; simpl.
  - destruct (String.eqb_spec k0 k); [contradiction | reflexivity].
  - destruct (String.eqb_spec k' k0) as [->|_]; simpl.
    + destruct (String.eqb_spec k0 k); [contradiction | reflexivity].
    + destruct (String.eqb k' k); [reflexivity | exact IH].
Qed.

Lemma dict_get_held (k : string) (d : Logger.dict V) :
  existsb (fun k' => String.eqb k' k) (Logger.dict_keys d) = true <->
  Logger.dict_get k d <> None.
Proof.
  induction d as [|[k' v'] d IH]; simpl.
  - split; [discriminate | congruence].
  - destruct (String.eqb k' k); simpl; [split; [discriminate | reflexivity] | exact IH].
Qed.

Lemma dict_keys_set (k : string) (v : V) (d : Logger.dict V) :
  Logger.dict_keys (Logger.dict_set k v d)
  = if existsb (fun k' => String.eqb k' k) (Logger.dict_keys d)
    then Logger.dict_keys d
    else Logger.dict_keys d ++ [k].
Proof.
  induction d as [|[k' v'] d IH]; simpl.
  - reflexivity.
  - destruct (String.eqb k' k); simpl; [reflexivity|].
    rewrite IH. now destruct (existsb _ _).
Qed.

Lemma held_In (k : string) (held : list string) :
  existsb (fun k' => String.eqb k' k) held = true <-> In k held.
Proof.
  rewrite existsb_exists. split.
  - intros [k' [Hin E]]. apply String.eqb_eq in E. now subst.
  - intros Hin. exists k. split; [exact Hin | apply String.eqb_refl].
Qed.

End DictFacts.

Lemma new_names_NoDup (names held : list string) :
  NoDup held -> NoDup (held ++ new_names held names).
Proof.
  revert held. induction names as [|k rest IH]; intros held Hnd; simpl.
  - now rewrite app_nil_r.
  - destruct (existsb _ held) eqn:E.
    + now apply IH.
    + change (k :: new_names (held ++ [k]) rest)
        with ([k] ++ new_names (held ++ [k]) rest).
      rewrite app_assoc. apply IH.
      apply NoDup_app; [exact Hnd | repeat constructor; intros [] | ].
      intros x Hx [->|[]].
      apply (held_In x held) in Hx. congruence.
Qed.

Lemma new_names_app (a b held : list string) :
  new_names held (a ++ b)
  = new_names held a ++ new_names (held ++ new_names held a) b.
Proof.
  revert held. induction a as [|k a IH]; intros held; simpl.
  - now rewrite app_nil_r.
  - destruct (existsb _ held).
    + apply IH.
    + simpl. f_equal. rewrite IH. now rewrite <- app_assoc.
Qed.

Section LoggerRecords.

Context {value : Type}.

Lemma extended_app (old : option (list value)) (a b : list value) :
  extended (extended old a) b = extended old (a ++ b).
Proof.
  destruct a as [|x a]; simpl; [reflexivity|].
  destruct b as [|y b]; simpl.
  - now rewrite app_nil_r.
  - now rewrite <- app_assoc.
Qed.

Lemma append_key_eq (k : string) (v : value) (d : Logger.dict (list value)) (b : bool) :
  Logger.append_key (k, v) (Logger.Build (Some d) b)
  = (Py.Ok tt,
     Logger.Build (Some (Logger.dict_set k (stored (Logger.dict_get k d) ++ [v]) d)) b).
Proof.
  unfold Logger.append_key. simpl. now destruct (Logger.dict_get k d).
Qed.

Lemma append_keys_spec (kwargs : list (string * value)) :
  forall (d : Logger.dict (list value)) (b : bool),
  exists d',
    Logger.append_keys kwargs (Logger.Build (Some d) b)
    = (Py.Ok tt, Logger.Build (Some d') b) /\
    (forall k, Logger.dict_get k d'
               = extended (Logger.dict_get k d) (values_of k kwargs)) /\
    Logger.dict_keys d'
    = Logger.dict_keys d ++ new_names (Logger.dict_keys d) (map fst kwargs).
Proof.
  induction kwargs as [|[k0 v0] rest IH]; intros d b.
  - exists d. simpl. repeat split. now rewrite app_nil_r.
  - destruct (IH (Logger.dict_set k0 (stored (Logger.dict_get k0 d) ++ [v0]) d) b)
      as [d' [Hrun [Hget Hkeys]]].
    exists d'. split; [|split].
    + simpl. unfold Py.bind. rewrite append_key_eq. exact Hrun.
    + intros k. rewrite Hget. unfold values_of. simpl.
      destruct (String.eqb_spec k0 k) as [->|Hne]; simpl.
      * rewrite dict_get_set_same.
        fold (values_of k rest).
        change (Some (stored (Logger.dict_get k d) ++ [v0]))
          with (extended (Logger.dict_get k d) [v0]).
        now rewrite extended_app.
      * now rewrite (dict_get_set_other k k0 _ d Hne).
    + rewrite Hkeys, dict_keys_set. simpl.
      destruct (existsb _ (Logger.dict_keys d)); [reflexivity|].
      now rewrite <- app_assoc.
Qed.

Lemma append_all_spec (calls : list (list (string * value))) :
  forall d : Logger.dict (list value),
  exists d',
    append_all calls (Logger.Build (Some d) true)
    = (Py.Ok tt, Logger.Build (Some d') true) /\
    (forall k, Logger.dict_get k d'
               = extended (Logger.dict_get k d) (column k calls)) /\
    Logger.dict_keys d'
    = Logger.dict_keys d ++ new_names (Logger.dict_keys d) (names_of calls).
Proof.
  induction calls as [|kwargs rest IH]; intros d.
  - exists d. simpl. repeat split. now rewrite app_nil_r.
  - destruct (append_keys_spec kwargs d true) as [d1 [Hrun1 [Hget1 Hkeys1]]].
    destruct (IH d1) as [d' [Hrun [Hget Hkeys]]].
    exists d'. split; [|split].
    + simpl. unfold Py.bind, Logger.append. simpl. rewrite Hrun1. exact Hrun.
    + intros k. rewrite Hget, Hget1. simpl. apply extended_app.
    + rewrite Hkeys, Hkeys1. unfold names_of. simpl.
      rewrite new_names_app. now rewrite <- app_assoc.
Qed.

Lemma dict_canonical (d : Logger.dict (list value)) :
  NoDup (Logger.dict_keys d) ->
  d = map (fun k => (k, stored (Logger.dict_get k d))) (Logger.dict_keys d).
Proof.
  induction d as [|[k0 v0] d IH]; simpl; intros Hnd.
  - reflexivity.
  - rewrite String.eqb_refl. simpl. f_equal.
    inversion Hnd as [|? ? Hnotin Hnd']; subst.
    rewrite (IH Hnd') at 1.
    apply map_ext_in. intros k Hin.
    destruct (String.eqb_spec k0 k) as [->|_]; [contradiction | reflexivity].
Qed.

End LoggerRecords.

(** ** Logger: recording and retrieving *)

Section LoggerRetrieval.

Context {value ndarray : Type}.
Variable np_array : list value -> ndarray.

(** An operating logger that holds a dict returns from [append], stays
    operating, and afterwards holds under every name its old sequence
    followed by the values the call carried for that name; a name the call
    did not carry is as before. *)
Theorem append_records
  (kwargs : list (string * value)) (d : Logger.dict (list value)) (k : string) :
  let self := Logger.Build (Some d) true in
  let self' := Py.after (Logger.append kwargs) self in
  Py.outcome (Logger.append kwargs) self = Py.Ok tt /\
  Logger.is_operating self' = true /\
  Logger.getitem self' k
  = match extended (Logger.dict_get k d) (values_of k kwargs) with
    | Some xs => Py.Ok xs
    | None => Py.Raise (Py.KeyError k)
    end.
Proof.
  intros self self'. subst self self'.
  destruct (append_keys_spec kwargs d true) as [d' [Hrun [Hget _]]].
  unfold Py.outcome, Py.after, Logger.append. simpl. rewrite Hrun. simpl.
  repeat split. unfold Logger.getitem. simpl. now rewrite Hget.
Qed.

(** [keys()] after an [append]: the keys held before, in their order, then
    the new names of the call in the order of the call, each once. *)
Theorem append_keeps_key_order
  (kwargs : list (string * value)) (d : Logger.dict (list value)) :
  Logger.keys (Py.after (Logger.append kwargs) (Logger.Build (Some d) true))
  = Py.Ok (Logger.dict_keys d
           ++ new_names (Logger.dict_keys d) (map fst kwargs)).
Proof.
  destruct (append_keys_spec kwargs d true) as [d' [Hrun [_ Hkeys]]].
  unfold Py.after, Logger.append. simpl. rewrite Hrun. simpl.
  unfold Logger.keys. simpl. now rewrite Hkeys.
Qed.

(** While the logger is turned off, any number of [append] calls return
    and leave it exactly as it was. *)
Theorem append_while_off
  (calls : list (list (string * value))) (self : Logger.t (value := value)) :
  Logger.is_operating self = false ->
  append_all calls self = (Py.Ok tt, self).
Proof.
  intros Hoff. induction calls as [|kwargs rest IH]; simpl.
  - reflexivity.
  - unfold Py.bind, Logger.append. rewrite Hoff. exact IH.
Qed.

Lemma append_all_init (calls : list (list (string * value))) :
  append_all calls Logger.init
  = (Py.Ok tt,
     Logger.Build
       (Some (map (fun k => (k, column k calls)) (new_names [] (names_of calls))))
       true).
Proof.
  destruct (append_all_spec calls []) as [d' [Hrun [Hget Hkeys]]].
  simpl in Hget, Hkeys.
  etransitivity; [exact Hrun|]. do 3 f_equal.
  assert (Hnd : NoDup (Logger.dict_keys d')).
  { rewrite Hkeys. apply (new_names_NoDup (names_of calls) []). constructor. }
  rewrite (dict_canonical d' Hnd) at 1. rewrite Hkeys.
  apply map_ext. intros k. rewrite Hget.
  now destruct (column k calls).
Qed.

(** From a new logger, after any sequence of [append] calls, the dict
    holds the names in the order of their first appearance, each with the
    values recorded under it, in call order. *)
Theorem data_after_appends (calls : list (list (string * value))) :
  Logger.data (Py.after (append_all calls) Logger.init)
  = Some (map (fun k => (k, column k calls)) (new_names [] (names_of calls))).
Proof. unfold Py.after. now rewrite append_all_init. Qed.




Lemma values_of_absent (k : string) (kwargs : list (string * value)) :
  ~ In k (map fst kwargs) -> values_of k kwargs = [].
Proof.
  unfold values_of. induction kwargs as [|[k0 v0] rest IH]; simpl; intros Hk.
  - reflexivity.
  - destruct (String.eqb_spec k0 k) as [->|_].
    + exfalso. apply Hk. now left.
    + apply IH. intros Hin. apply Hk. now right.
Qed.

Lemma values_of_once (k : string) (kwargs : list (string * value)) :
  NoDup (map fst kwargs) -> In k (map fst kwargs) ->
  List.length (values_of k kwargs) = 1%nat.
Proof.
  induction kwargs as [|[k0 v0] rest IH]; simpl; intros Hnd Hin.
  - contradiction.
  - inversion Hnd as [|? ? Hnotin Hnd']; subst.
    unfold values_of. simpl.
    destruct (String.eqb_spec k0 k) as [->|Hne]; simpl.
    + fold (values_of k rest). now rewrite (values_of_absent k rest Hnotin).
    + destruct Hin as [E|Hin]; [contradiction|]. now apply IH.
Qed.

(** When every [append] call carries the same names, each once, [len()]
    of a new logger after the calls is the number of calls. *)
Theorem len_counts_appends
  (k1 : string) (ks : list string)
  (kwargs : list (string * value)) (calls : list (list (string * value))) :
  NoDup (k1 :: ks) ->
  Forall (fun kw => map fst kw = k1 :: ks) (kwargs :: calls) ->
  Logger.len (Py.after (append_all (kwargs :: calls)) Logger.init)
  = Py.Ok (List.length (kwargs :: calls)).
Proof.
  intros Hnd Hall. unfold Py.after. rewrite append_all_init. cbn [snd].
  assert (En : exists rest, names_of (kwargs :: calls) = k1 :: rest).
  { unfold names_of. simpl. inversion Hall as [|? ? Hk _]; subst.
    rewrite Hk. simpl. eauto. }
  destruct En as [rest En]. rewrite En. cbn [new_names existsb map].
  rewrite len_of_first_key. f_equal.
  clear En rest. unfold column.
  induction Hall as [|kw l Hkw _ IH]; simpl.
  - reflexivity.
  - rewrite length_app, IH.
    rewrite (values_of_once k1 kw); [reflexivity | | ];
      rewrite Hkw; [exact Hnd | now left].
Qed.

End LoggerRetrieval.

Lemma append_while_off_witness :
  append_all [[("time"%string, 0%Z)]; [("time"%string, 1%Z)]]
             (Logger.turn_off Logger.init)
  = (Py.Ok tt, Logger.turn_off Logger.init).
Proof.
  apply (append_while_off [[("time"%string, 0%Z)]; [("time"%string, 1%Z)]]
           (Logger.turn_off Logger.init)).
  reflexivity.
Defined.

Lemma len_counts_appends_witness :
  Logger.len
    (Py.after (append_all [[("x"%string, 1%Z); ("y"%string, 10%Z)];
                           [("x"%string, 2%Z); ("y"%string, 20%Z)]])
              Logger.init)
  = Py.Ok 2%nat.
Proof.
  apply (len_counts_appends "x"%string ["y"%string]
           [("x"%string, 1%Z); ("y"%string, 10%Z)]
           [[("x"%string, 2%Z); ("y"%string, 20%Z)]]).
  - repeat constructor; simpl; intuition discriminate.
  - repeat constructor.
Defined.

(** ** Logger: [get] with names *)

Section LoggerGetNames.

Context {value ndarray : Type}.
Variable np_array : list value -> ndarray.
Variable d : Logger.dict (list value).
Variable b : bool.

Let self : Logger.t := Logger.Build (Some d) b.





End LoggerGetNames.



(** ** Logger: [save] and [load] *)

Section LoggerPersistence.

Context {value ndarray h5file dataset : Type}.
Variable np_array : list value -> ndarray.
Variable h5_setitem : string -> ndarray -> Py.M h5file unit.
Variable h5_items : string -> h5file -> Py.result (list (string * dataset)).
Variable list_of_dataset : dataset -> Py.result (list value).

(** [save] of an empty logger returns and writes nothing, whatever the
    file argument, [None] included. *)
Theorem save_empty_logger
  (self : Logger.t (value := value)) (data_group : string) (h5 : option h5file) :
  Logger.is_empty self = true ->
  Logger.save np_array h5_setitem self data_group h5 = (Py.Ok tt, h5).
Proof.
  intros He. unfold Logger.save, Logger.get. rewrite He. reflexivity.
Qed.

(** [save] of a logger that holds exactly one key raises the [TypeError]
    of [get()] and writes nothing. *)
Theorem save_one_key_raises
  (key : string) (xs : list value) (b : bool) (data_group : string)
  (h5 : option h5file) :
  Logger.save np_array h5_setitem (Logger.Build (Some [(key, xs)]) b) data_group h5
  = (Py.Raise Py.TypeError, h5).
Proof. reflexivity. Qed.


(** [load] from a group the file lacks returns and leaves the logger as
    it was. *)
Theorem load_missing_group
  (self : Logger.t (value := value)) (file : h5file) (data_group : string)
  (k : string) :
  h5_items data_group file = Py.Raise (Py.KeyError k) ->
  Logger.load h5_items list_of_dataset (Some file) data_group self = (Py.Ok tt, self).
Proof.
  intros Hg. unfold Logger.load, Logger.load_try, Py.bind, Py.lift.
  rewrite Hg. reflexivity.
Qed.

Lemma dict_get_combine_absent {V} (k : string) (names : list string) (vs : list V) :
  ~ In k names -> Logger.dict_get k (combine names vs) = None.
Proof.
  intros Hk. apply dict_get_absent. intros Hin. apply Hk.
  unfold Logger.dict_keys in Hin. apply in_map_iff in Hin.
  destruct Hin as [[k' v] [E Hin]]. simpl in E. subst k'.
  now apply in_combine_l in Hin.
Qed.

Lemma load_items_spec (items : list (string * dataset)) (seqs : list (list value)) :
  Forall2 (fun item xs => list_of_dataset (snd item) = Py.Ok xs) items seqs ->
  NoDup (map fst items) ->
  forall (d : Logger.dict (list value)) (b : bool),
  exists d',
    Logger.load_items list_of_dataset items (Logger.Build (Some d) b)
    = (Py.Ok tt, Logger.Build (Some d') b) /\
    forall k, Logger.dict_get k d'
              = match Logger.dict_get k (combine (map fst items) seqs) with
                | Some xs => Some xs
                | None => Logger.dict_get k d
                end.
Proof.
  induction 1 as [|[k0 ds0] xs0 items seqs Hconv _ IH]; intros Hnd d b.
  - exists d. split; reflexivity.
  - inversion Hnd as [|? ? Hnotin Hnd']; subst.
    destruct (IH Hnd' (Logger.dict_set k0 xs0 d) b) as [d' [Hrun Hget]].
    exists d'. split.
    + simpl in *. unfold Py.bind, Py.lift. rewrite Hconv.
      unfold Logger.setitem. simpl. exact Hrun.
    + intros k. rewrite Hget. simpl.
      destruct (String.eqb_spec k0 k) as [->|Hne].
      * rewrite (dict_get_combine_absent k (map fst items) seqs Hnotin).
        apply dict_get_set_same.
      * destruct (Logger.dict_get k (combine (map fst items) seqs));
          [reflexivity | now apply dict_get_set_other].
Qed.

(** [load] from a group whose members all convert to lists returns,
    whether the logger is turned on or off; afterwards every member's name
    holds the member's list, and every other key is as before. *)
Theorem load_replaces
  (d : Logger.dict (list value)) (b : bool) (file : h5file) (data_group : string)
  (items : list (string * dataset)) (seqs : list (list value)) (k : string) :
  h5_items data_group file = Py.Ok items ->
  NoDup (map fst items) ->
  Forall2 (fun item xs => list_of_dataset (snd item) = Py.Ok xs) items seqs ->
  let self := Logger.Build (Some d) b in
  let loading := Logger.load h5_items list_of_dataset (Some file) data_group in
  Py.outcome loading self = Py.Ok tt /\
  Logger.is_operating (Py.after loading self) = b /\
  Logger.getitem (Py.after loading self) k
  = match Logger.dict_get k (combine (map fst items) seqs) with
    | Some xs => Py.Ok xs
    | None => Logger.getitem self k
    end.
Proof.
  intros Hg Hnd Hconv self loading. subst self loading.
  destruct (load_items_spec items seqs Hconv Hnd d b) as [d' [Hrun Hget]].
  unfold Py.outcome, Py.after, Logger.load, Logger.load_try, Py.bind, Py.lift.
  rewrite Hg, Hrun. simpl. repeat split.
  unfold Logger.getitem. simpl. rewrite Hget.
  now destruct (Logger.dict_get k (combine (map fst items) seqs)).
Qed.

End LoggerPersistence.

Lemma save_empty_logger_witness :
  Logger.save (fun xs : list Z => xs) example_setitem Logger.init "log" None
  = (Py.Ok tt, None).
Proof.
  apply (save_empty_logger (fun xs : list Z => xs) example_setitem
           Logger.init "log"%string None).
  reflexivity.
Defined.


Lemma load_missing_group_witness :
  Logger.load example_items (fun ds : list Z => Py.Ok ds) (Some []) "other"
    (Logger.init (value := Z))
  = (Py.Ok tt, Logger.init).
Proof.
  apply (load_missing_group example_items (fun ds : list Z => Py.Ok ds)
           Logger.init [] "other"%string "other"%string).
  reflexivity.
Defined.

Lemma load_replaces_witness :
  let self := Logger.Build (Some [("x"%string, [1%Z]); ("z"%string, [5%Z])]) false in
  let loading :=
    Logger.load example_items (fun ds : list Z => Py.Ok ds)
      (Some [("x"%string, [7%Z; 8%Z])]) "log" in
  Py.outcome loading self = Py.Ok tt /\
  Logger.is_operating (Py.after loading self) = false /\
  Logger.getitem (Py.after loading self) "x" = Py.Ok [7%Z; 8%Z].
Proof.
  apply (load_replaces example_items (fun ds : list Z => Py.Ok ds)
           [("x"%string, [1%Z]); ("z"%string, [5%Z])] false
           [("x"%string, [7%Z; 8%Z])] "log"%string
           [("x"%string, [7%Z; 8%Z])] [[7%Z; 8%Z]] "x"%string).
  - reflexivity.
  - repeat constructor; simpl; intuition.
  - repeat constructor.
Defined.

(** ** SimClock *)

Lemma step_keeps_time_res (l : loc) (c : call) (w : world) :
  keeps_time_res l c = true ->
  SimClock.time_res (clocks (snd (step c w)) l) = SimClock.time_res (clocks w l).
Proof.
  intros Hk. unfold step.
  destruct c as [l' m| |l'|arg| | | ];
    try (destruct (timer_method (clocks w) _ (timer w)); reflexivity).
  simpl. unfold store_update.
  destruct (Nat.eqb l l') eqn:E; [|reflexivity].
  destruct m; simpl in *; try reflexivity.
  rewrite Nat.eqb_sym, E in Hk. discriminate.
Qed.

(** The resolution of a clock changes by [apply_time_res] on that clock
    only: no other call on it, on another clock or on the timer changes
    it. *)
Theorem time_res_changes_only_explicitly (l : loc) (cs : list call) (w : world) :
  forallb (keeps_time_res l) cs = true ->
  SimClock.time_res (clocks (run cs w) l) = SimClock.time_res (clocks w l).
Proof.
  revert w. induction cs as [|c cs IH]; intros w Hk; simpl in *.
  - reflexivity.
  - apply andb_true_iff in Hk. destruct Hk as [Hc Hcs].
    rewrite (IH _ Hcs). now apply step_keeps_time_res.
Qed.

Lemma time_res_changes_only_explicitly_witness :
  SimClock.time_res
    (clocks (run [OnClock 0 (ClockElapse 1%float); OnClock 1 (ClockApplyTimeRes 1%float);
                  AttachSimClock 0; TurnOn None; OnClock 0 ClockReset; Forward;
                  OnClock 0 (ClockApplyTime 2%float)]
                 (fresh (Py.Int 3))) 0%nat)
  = SimClock.default_time_res.
Proof.
  apply (time_res_changes_only_explicitly 0%nat
           [OnClock 0 (ClockElapse 1%float); OnClock 1 (ClockApplyTimeRes 1%float);
            AttachSimClock 0; TurnOn None; OnClock 0 ClockReset; Forward;
            OnClock 0 (ClockApplyTime 2%float)]
           (fresh (Py.Int 3))).
  reflexivity.
Defined.
